(** * The chassis REST controller (ironic/api/controllers/v1/chassis.py)

    A shallow embedding of the chassis API representation, its conversion
    from persisted records, the JSON-patch update and the collection
    listings, followed by the properties the specification states about
    them.

    Python objects are dynamically typed: attribute values are modelled by
    one type [value] that contains the [Unset] sentinel of wsme, [None],
    strings, numbers, lists and dicts.  Exceptions are modelled by the
    left summand of [exn + A].  Code that chassis.py imports from other
    modules of the repository is either a field of the class [Env] or a
    definition marked "Modelled from the spec". *)

From stdpp Require Import gmap strings list fin_maps.
From Stdlib Require Import ZArith Ascii.

Local Open Scope Z_scope.
Local Open Scope string_scope.

(** ** Python values *)

(** [link.Link]: the spec gives its JSON shape as [{href, rel}]. *)
Record Link := { href : string; rel : string }.

Global Instance Link_eq_dec : EqDecision Link.
Proof. solve_decision. Defined.

#[local] Set Warnings "-register-all".

Inductive value :=
| Unset                                  (* wtypes.Unset *)
| VNone                                  (* None *)
| VBool (b : bool)
| VInt (z : Z)
| VStr (s : string)
| VTime (t : Z)                          (* datetime.datetime, as a timestamp *)
| VLink (l : Link)
| VList (vs : list value)
| VDict (kvs : list (string * value)).

(** Python's [==] on the values above is structural equality. *)
Fixpoint value_eqb (x y : value) {struct x} : bool :=
  match x, y with
  | Unset, Unset => true
  | VNone, VNone => true
  | VBool a, VBool b => bool_decide (a = b)
  | VInt a, VInt b => bool_decide (a = b)
  | VStr a, VStr b => bool_decide (a = b)
  | VTime a, VTime b => bool_decide (a = b)
  | VLink a, VLink b => bool_decide (a = b)
  | VList xs, VList ys =>
      (fix go (xs ys : list value) {struct xs} : bool :=
         match xs, ys with
         | [], [] => true
         | x :: xs, y :: ys => value_eqb x y && go xs ys
         | _, _ => false
         end) xs ys
  | VDict xs, VDict ys =>
      (fix go (xs ys : list (string * value)) {struct xs} : bool :=
         match xs, ys with
         | [], [] => true
         | (k, x) :: xs, (k', y) :: ys =>
             bool_decide (k = k') && value_eqb x y && go xs ys
         | _, _ => false
         end) xs ys
  | _, _ => false
  end.

Lemma value_eqb_refl (x : value) : value_eqb x x = true.
Proof.
  revert x. fix IH 1. intros [ | |b|z|s|t|l|vs|kvs]; simpl;
    try reflexivity; try (apply bool_decide_eq_true; reflexivity).
  - induction vs as [|v vs IHvs]; [reflexivity|].
    rewrite IH. exact IHvs.
  - induction kvs as [|[k v] kvs IHkvs]; [reflexivity|].
    rewrite bool_decide_eq_true_2 by reflexivity. rewrite IH. exact IHkvs.
Qed.

Lemma value_eqb_sound (x y : value) : value_eqb x y = true → x = y.
Proof.
  revert x y. fix IH 1.
  intros [ | |b|z|s|t|l|vs|kvs] [ | |b'|z'|s'|t'|l'|vs'|kvs']; simpl;
    try discriminate; try reflexivity;
    try (intros H; apply bool_decide_eq_true in H; congruence).
  - intros H. f_equal. revert vs' H.
    induction vs as [|v vs IHvs]; intros [|v' vs'] H;
      try discriminate; [reflexivity|].
    apply andb_true_iff in H as [H1 H2].
    f_equal; [apply IH, H1 | apply IHvs, H2].
  - intros H. f_equal. revert kvs' H.
    induction kvs as [|[k v] kvs IHkvs]; intros [|[k' v'] kvs'] H;
      try discriminate; [reflexivity|].
    apply andb_true_iff in H as [H12 H3].
    apply andb_true_iff in H12 as [H1 H2].
    apply bool_decide_eq_true in H1.
    f_equal; [f_equal; [exact H1 | apply IH, H2] | apply IHkvs, H3].
Qed.

Global Instance value_eq_dec : EqDecision value.
Proof.
  intros x y. destruct (value_eqb x y) eqn:E.
  - left. apply value_eqb_sound, E.
  - right. intros ->. rewrite value_eqb_refl in E. discriminate.
Defined.

(** ** Exceptions *)

(** [ChassisPatchType]: one operation of a JSON patch document. *)
Record ChassisPatchType := { op : string; path : string; patch_value : value }.

Inductive exn :=
| InvalidParameterValue (msg : string)
| HTTPNotFound
| ResourceNotFound (ident : string)
| PatchError (patch : list ChassisPatchType) (reason : exn)
| TypeError
| AttributeError (name : string)
| IndexError
| Raised (cls msg : string).             (* any exception of a collaborator *)

(** The error taxonomy of the spec (section 7).  The controller raises
    [exception.HTTPNotFound] for a misplaced [/detail]; the spec files it,
    with the unknown uuid or marker, under ResourceNotFound (404). *)
Inductive error_class :=
| InvalidParameterValueC | ResourceNotFoundC | PatchErrorC | OtherErrorC.

Definition classify (e : exn) : error_class :=
  match e with
  | InvalidParameterValue _ => InvalidParameterValueC
  | HTTPNotFound | ResourceNotFound _ => ResourceNotFoundC
  | PatchError _ _ => PatchErrorC
  | _ => OtherErrorC
  end.

(** The exception monad: [raise] is [inl], [return] is [inr]. *)
Global Instance exn_ret : MRet (sum exn) := λ A a, inr a.
Global Instance exn_bind : MBind (sum exn) := λ A B f m,
  match m with inl e => inl e | inr a => f a end.

(** ** Python helpers used by the controller *)

(** [v + s] for a Python value [v] and a string literal [s]: string
    concatenation, a [TypeError] when [v] is not a string. *)
Definition py_add (v : value) (s : string) : exn + value :=
  match v with
  | VStr u => inr (VStr (u +:+ s))
  | _ => inl TypeError
  end.

(** [s.split(sep)] for a one-character separator: never the empty list. *)
Fixpoint py_split_from (sep : ascii) (cur : string) (s : string) : list string :=
  match s with
  | EmptyString => [cur]
  | String c s' =>
      if Ascii.eqb c sep then cur :: py_split_from sep "" s'
      else py_split_from sep (cur +:+ String c "") s'
  end.

Definition py_split (sep : ascii) (s : string) : list string :=
  py_split_from sep "" s.

(** [l[:-1]] and [l[-1]]. *)
Definition py_init {A} (l : list A) : list A := take (length l - 1)%nat l.

Definition py_last {A} (l : list A) : exn + A :=
  match last l with
  | Some x => inr x
  | None => inl IndexError
  end.

(** [pecan.request]: what the controller reads off the current request. *)
Record Request := { host_url : string; request_path : string }.

(** ** ironic.objects.Chassis, the persisted record *)

Module objects.

(** An in-memory chassis object: the values of its fields and the set of
    fields assigned since it was loaded (what [save] will persist). *)
Record Chassis := {
  obj_values : gmap string value;
  obj_changes : gset string;
}.

(** Modelled from the spec: objects.Chassis.as_dict, "the dict form of a
    ChassisRecord" (sections 3 and 4.4): every field the record holds. *)
Definition as_dict (self : Chassis) : gmap string value := obj_values self.

(** Modelled from the spec: item access [rpc_chassis[field]], "the
    original record's current value" (section 4.4).  A field the object
    holds no value for has no current value; the model makes reading it
    an error. *)
Definition getitem (self : Chassis) (field : string) : exn + value :=
  match obj_values self !! field with
  | Some v => inr v
  | None => inl (Raised "NotImplementedError" field)
  end.

(** Modelled from the spec: item assignment [rpc_chassis[field] = v],
    which "stages a change" (section 4.4): the value is stored and the
    field is recorded as changed. *)
Definition setitem (self : Chassis) (field : string) (v : value) : Chassis :=
  {| obj_values := <[field := v]> (obj_values self);
     obj_changes := {[field]} ∪ obj_changes self |}.

End objects.

(** ** The API types of chassis.py *)

(** An instance of the API class [Chassis]: the list [self.fields] built by
    [__init__] and the wsme attribute store.  An attribute that is unset is
    absent from the store. *)
Record Chassis := {
  fields : list string;
  attrs : gmap string value;
}.

(** An instance of [ChassisCollection]. *)
Record ChassisCollection := {
  _type : string;
  chassis : list Chassis;
  next : value;
}.

(** ** The collaborators of chassis.py

    What the module imports from the rest of the repository and from the
    framework, and whose code is not part of chassis.py. *)
Class Env := {
  (** the persistence layer behind [ironic.objects] *)
  DB : Type;
  (** [objects.Chassis.fields], the declared fields of the record type *)
  Chassis_fields : list string;
  (** the record a uuid identifies, if any *)
  db_get_by_uuid : DB → string → option objects.Chassis;
  (** [objects.Chassis.list(context, limit, marker_obj, sort_key, sort_dir)] *)
  db_list : DB → Z → option objects.Chassis → string → string →
            exn + list objects.Chassis;
  (** [rpc_chassis.save()]: the refreshed object and the new store *)
  db_save : objects.Chassis → DB → exn + (objects.Chassis * DB);
  (** the version segment of a non-bookmark URL *)
  api_version_prefix : string;
  (** the configured maximum page size *)
  max_limit : Z;
  (** [api_utils.check_allow_specify_fields] *)
  check_allow_specify_fields : option (list string) → exn + ();
  (** [api_utils.apply_jsonpatch] *)
  apply_jsonpatch : gmap string value → list ChassisPatchType →
                    exn + gmap string value;
  (** [api_utils.JSONPATCH_EXCEPTIONS], as a test on the exception *)
  JSONPATCH_EXCEPTIONS : exn → bool;
  (** [base.APIBase.unset_fields_except] *)
  unset_fields_except : Chassis → list string → Chassis;
  (** [collection.Collection.get_next(limit, url, sort_key, sort_dir)],
      given the collection's [_type] and items *)
  get_next : string → list Chassis → Z → option string → string → string →
             value;
}.

(** ** ironic.api.controllers.link *)

Module link.
Section link.
Context `{Env}.

(** Modelled from the spec: the URL of section 4.1,
    [{base_url}/{api_version_prefix}/{resource_type}/{resource_id}], the
    version prefix being omitted for a bookmark. *)
Definition build_url (resource resource_args : string) (bookmark : bool)
    (base_url : string) : string :=
  if bookmark
  then base_url +:+ "/" +:+ resource +:+ "/" +:+ resource_args
  else base_url +:+ "/" +:+ api_version_prefix +:+ "/" +:+ resource
       +:+ "/" +:+ resource_args.

(** Modelled from the spec: link.Link.make_link(relation, base_url,
    resource_type, resource_id, bookmark) of section 4.1.  The resource
    id is a string; any other Python value is a [TypeError]. *)
Definition make_link (rel_name url resource : string)
    (resource_args : value) (bookmark : bool) : exn + Link :=
  match resource_args with
  | VStr args =>
      inr {| href := build_url resource args bookmark url; rel := rel_name |}
  | _ => inl TypeError
  end.

End link.
End link.

(** ** ironic.api.controllers.v1.utils *)

Module api_utils.
Section api_utils.
Context `{Env}.

(** Modelled from the spec: validate_limit (section 4.5), "positive
    integer, capped at a configured maximum"; an absent limit is the
    configured maximum. *)
Definition validate_limit (limit : option Z) : exn + Z :=
  match limit with
  | None => inr max_limit
  | Some l =>
      if bool_decide (l ≤ 0)%Z
      then inl (InvalidParameterValue "Limit must be positive")
      else inr (Z.min max_limit l)
  end.

(** Modelled from the spec: validate_sort_dir (section 4.5), "must be
    one of {asc, desc}; any other value fails with
    InvalidParameterValue". *)
Definition validate_sort_dir (sort_dir : string) : exn + string :=
  if bool_decide (sort_dir ∈ ["asc"; "desc"])
  then inr sort_dir
  else inl (InvalidParameterValue ("Invalid sort direction: " +:+ sort_dir)).

(** Modelled from the spec: check_for_invalid_fields (section 4.2),
    which "fails with InvalidParameterValue if any requested field name
    is not a member of available_fields". *)
Definition check_for_invalid_fields (requested : list string)
    (object_fields : gmap string value) : exn + () :=
  match filter (λ f, object_fields !! f = None) requested with
  | [] => inr ()
  | invalid =>
      inl (InvalidParameterValue
             ("Field(s) " +:+ String.concat ", " invalid +:+ " are not valid"))
  end.

End api_utils.
End api_utils.

(** ** ironic.api.controllers.base.APIBase and the wsme attributes *)

Module base.
Section base.
Context `{Env}.

(** Modelled from the spec: the attributes [base.APIBase] declares for
    every representation, the read-only timestamps of section 6. *)
Definition APIBase_attributes : list string := ["created_at"; "updated_at"].

(** The attributes of the class [Chassis]: the five declared in
    chassis.py and the inherited ones. *)
Definition Chassis_attributes : list string :=
  ["uuid"; "description"; "extra"; "links"; "nodes"] ++ APIBase_attributes.

(** [hasattr(self, name)] for the name of a record field. *)
Definition hasattr (self : Chassis) (name : string) : bool :=
  bool_decide (name ∈ Chassis_attributes).

(** [getattr(self, name)]: a declared attribute reads as its stored
    value, or as [Unset] when nothing is stored; any other name raises
    [AttributeError]. *)
Definition getattr (self : Chassis) (name : string) : exn + value :=
  if bool_decide (name ∈ Chassis_attributes)
  then inr (default Unset (attrs self !! name))
  else inl (AttributeError name).

(** [setattr(self, name, v)]: storing [Unset] clears the attribute. *)
Definition setattr (self : Chassis) (name : string) (v : value) : Chassis :=
  {| fields := fields self;
     attrs := if decide (v = Unset) then delete name (attrs self)
              else <[name := v]> (attrs self) |}.

(** Modelled from the spec: base.APIBase.as_dict, the dict form of the
    representation: the exposed record fields that hold a value.  Its
    keys are the "available fields" of section 4.2. *)
Definition as_dict (self : Chassis) : gmap string value :=
  list_to_map
    (omap (λ k, match getattr self k with
                | inr v => if decide (v = Unset) then None else Some (k, v)
                | inl _ => None
                end) (fields self)).

(** The contract of [unset_fields_except] (section 4.2): projection only
    clears attributes, and never one that the filter names. *)
Definition projection_contract : Prop :=
  ∀ (c : Chassis) (fs : list string) (a : string),
    (a ∈ fs → getattr (unset_fields_except c fs) a = getattr c a) ∧
    (getattr (unset_fields_except c fs) a = getattr c a ∨
     getattr (unset_fields_except c fs) a = inr Unset).

End base.
End base.

(** ** chassis.py *)

Definition _DEFAULT_RETURN_FIELDS : list string := ["uuid"; "description"].

(** *** class Chassis *)

Module Chassis.
Section Chassis.
Context `{Env}.

(** The body of the loop of [__init__]: a field the class has no
    attribute for is skipped, any other is appended to [self.fields] and
    set from [kwargs] ([Unset] when [kwargs] lacks it). *)
Definition init_step (kwargs : gmap string value) (self : Chassis)
    (field : string) : Chassis :=
  if negb (base.hasattr self field) then self
  else base.setattr
         {| fields := fields self ++ [field]; attrs := attrs self |}
         field (default Unset (kwargs !! field)).

(** [Chassis.__init__(self, **kwargs)]: one pass over the declared record
    fields, starting from [self.fields = []]. *)
Definition __init__ (kwargs : gmap string value) : Chassis :=
  foldl (init_step kwargs) {| fields := []; attrs := ∅ |} Chassis_fields.

(** [Chassis._convert_with_links(chassis, url, fields=None)]. *)
Definition _convert_with_links (chassis : Chassis) (url : string)
    (fields : option (list string)) : exn + Chassis :=
  chassis_uuid ← base.getattr chassis "uuid";
  chassis ←
    match fields with
    | Some fields => mret (unset_fields_except chassis fields)
    | None =>
        self_args ← py_add chassis_uuid "/nodes";
        self_link ← link.make_link "self" url "chassis" self_args false;
        bookmark_args ← py_add chassis_uuid "/nodes";
        bookmark_link ←
          link.make_link "bookmark" url "chassis" bookmark_args true;
        mret (base.setattr chassis "nodes"
                (VList [VLink self_link; VLink bookmark_link]))
    end;
  self_link ← link.make_link "self" url "chassis" chassis_uuid false;
  bookmark_link ← link.make_link "bookmark" url "chassis" chassis_uuid true;
  mret (base.setattr chassis "links"
          (VList [VLink self_link; VLink bookmark_link])).

(** [Chassis.convert_with_links(rpc_chassis, fields=None)]; the url is
    [pecan.request.host_url]. *)
Definition convert_with_links (req : Request) (rpc_chassis : objects.Chassis)
    (fields : option (list string)) : exn + Chassis :=
  let chassis := __init__ (objects.as_dict rpc_chassis) in
  _ ← match fields with
      | Some fields =>
          api_utils.check_for_invalid_fields fields (base.as_dict chassis)
      | None => mret ()
      end;
  _convert_with_links chassis (host_url req) fields.

(** [Chassis.sample(expand=True)]; the time is
    [datetime.datetime(2000, 1, 1, 12, 0, 0)]. *)
Definition sample (expand : bool) : exn + Chassis :=
  let time := VTime 946728000 in
  let sample :=
    __init__ (list_to_map
                [("uuid", VStr "eaaca217-e7d8-47b4-bb41-3f99f20eed89");
                 ("extra", VDict []);
                 ("description", VStr "Sample chassis");
                 ("created_at", time);
                 ("updated_at", time)]) in
  let fields := if expand then None else Some _DEFAULT_RETURN_FIELDS in
  _convert_with_links sample "http://localhost:6385" fields.

End Chassis.
End Chassis.

(** *** class ChassisCollection *)

Module ChassisCollection.
Section ChassisCollection.
Context `{Env}.

(** [ChassisCollection.convert_with_links(chassis, limit, url, fields,
    sort_key=..., sort_dir=...)]: the records are converted in order and
    the first failure is raised. *)
Definition convert_with_links (req : Request)
    (chassis : list objects.Chassis) (limit : Z) (url : option string)
    (fields : option (list string)) (sort_key sort_dir : string)
    : exn + ChassisCollection :=
  items ← mapM (λ ch, Chassis.convert_with_links req ch fields) chassis;
  let url := match url with Some "" => None | _ => url end in
  mret {| _type := "chassis";
          chassis := items;
          next := get_next "chassis" items limit url sort_key sort_dir |}.

(** [ChassisCollection.sample()]. *)
Definition sample : exn + ChassisCollection :=
  item ← Chassis.sample false;
  mret {| _type := "chassis"; chassis := [item]; next := Unset |}.

End ChassisCollection.
End ChassisCollection.

(** *** class ChassisController *)

Module ChassisController.
Section ChassisController.
Context `{Env}.

(** Modelled from the spec: objects.Chassis.get_by_uuid (section 6),
    the record a uuid identifies, "fails ResourceNotFound" otherwise. *)
Definition get_by_uuid (db : DB) (uuid : string) : exn + objects.Chassis :=
  match db_get_by_uuid db uuid with
  | Some rpc_chassis => inr rpc_chassis
  | None => inl (ResourceNotFound uuid)
  end.

Definition invalid_sort_key_list : list string := ["extra"].

Definition invalid_sort_key_message (sort_key : string) : string :=
  "The sort_key value " +:+ sort_key +:+ " is an invalid field for sorting".

(** [ChassisController._get_chassis_collection(marker, limit, sort_key,
    sort_dir, resource_url=None, fields=None)].  [if marker:] is false
    for [None] and for the empty string. *)
Definition _get_chassis_collection (req : Request) (marker : option string)
    (limit : option Z) (sort_key sort_dir : string)
    (resource_url : option string) (fields : option (list string))
    (db : DB) : exn + ChassisCollection :=
  limit ← api_utils.validate_limit limit;
  sort_dir ← api_utils.validate_sort_dir sort_dir;
  marker_obj ←
    match marker with
    | None | Some "" => mret None
    | Some marker =>
        marker_obj ← get_by_uuid db marker;
        mret (Some marker_obj)
    end;
  if bool_decide (sort_key ∈ invalid_sort_key_list)
  then inl (InvalidParameterValue (invalid_sort_key_message sort_key))
  else
    chassis ← db_list db limit marker_obj sort_key sort_dir;
    ChassisCollection.convert_with_links req chassis limit resource_url
      fields sort_key sort_dir.

(** [ChassisController.get_all(marker, limit, sort_key, sort_dir,
    fields)]. *)
Definition get_all (req : Request) (marker : option string)
    (limit : option Z) (sort_key sort_dir : string)
    (fields : option (list string)) (db : DB) : exn + ChassisCollection :=
  _ ← check_allow_specify_fields fields;
  let fields :=
    match fields with
    | None => _DEFAULT_RETURN_FIELDS
    | Some fields => fields
    end in
  _get_chassis_collection req marker limit sort_key sort_dir None
    (Some fields) db.

(** The parent segment [pecan.request.path.split('/')[:-1][-1]]. *)
Definition parent_segment (req : Request) : exn + string :=
  py_last (py_init (py_split "/" (request_path req))).

(** [ChassisController.detail(marker, limit, sort_key, sort_dir)]. *)
Definition detail (req : Request) (marker : option string)
    (limit : option Z) (sort_key sort_dir : string) (db : DB)
    : exn + ChassisCollection :=
  parent ← parent_segment req;
  if bool_decide (parent ≠ "chassis") then inl HTTPNotFound
  else
    let resource_url := String.concat "/" ["chassis"; "detail"] in
    _get_chassis_collection req marker limit sort_key sort_dir
      (Some resource_url) None db.

(** [ChassisController.get_one(chassis_uuid, fields=None)]. *)
Definition get_one (req : Request) (chassis_uuid : string)
    (fields : option (list string)) (db : DB) : exn + Chassis :=
  _ ← check_allow_specify_fields fields;
  rpc_chassis ← get_by_uuid db chassis_uuid;
  Chassis.convert_with_links req rpc_chassis fields.

(** One iteration of the loop of [patch]: the body of
    [for field in objects.Chassis.fields]. *)
Definition patch_field (chassis : Chassis) (rpc_chassis : objects.Chassis)
    (field : string) : exn + objects.Chassis :=
  match base.getattr chassis field with
  | inl (AttributeError _) => inr rpc_chassis
  | inl e => inl e
  | inr patch_val =>
      let patch_val := if decide (patch_val = Unset) then VNone else patch_val in
      current ← objects.getitem rpc_chassis field;
      if decide (current ≠ patch_val)
      then inr (objects.setitem rpc_chassis field patch_val)
      else inr rpc_chassis
  end.

(** The loop of [patch], "Update only the fields that have changed". *)
Fixpoint update_changed_fields (chassis : Chassis)
    (rpc_chassis : objects.Chassis) (fields : list string)
    : exn + objects.Chassis :=
  match fields with
  | [] => inr rpc_chassis
  | field :: fields =>
      rpc_chassis ← patch_field chassis rpc_chassis field;
      update_changed_fields chassis rpc_chassis fields
  end.

(** [ChassisController.patch(chassis_uuid, patch)]: the outcome and the
    persistent store it leaves. *)
Definition patch (req : Request) (chassis_uuid : string)
    (patch : list ChassisPatchType) (db : DB) : (exn + Chassis) * DB :=
  match get_by_uuid db chassis_uuid with
  | inl e => (inl e, db)
  | inr rpc_chassis =>
      match apply_jsonpatch (objects.as_dict rpc_chassis) patch with
      | inl e =>
          if JSONPATCH_EXCEPTIONS e then (inl (PatchError patch e), db)
          else (inl e, db)
      | inr patched =>
          let chassis := Chassis.__init__ patched in
          match update_changed_fields chassis rpc_chassis Chassis_fields with
          | inl e => (inl e, db)
          | inr rpc_chassis =>
              match db_save rpc_chassis db with
              | inl e => (inl e, db)
              | inr (rpc_chassis, db) =>
                  (Chassis.convert_with_links req rpc_chassis None, db)
              end
          end
      end
  end.

End ChassisController.
End ChassisController.

(** ** A reference environment

    A small in-memory instance of the collaborators: a store that is a
    list of rows, patch documents that address top-level fields, and a
    projection that clears every exposed field the filter does not name.
    The examples below are evaluated in it. *)

Module demo.

Definition row_object (row : gmap string value) : objects.Chassis :=
  {| objects.obj_values := row; objects.obj_changes := ∅ |}.

Definition has_uuid (uuid : value) (row : gmap string value) : bool :=
  bool_decide (row !! "uuid" = Some uuid).

Definition lookup_row (db : list (gmap string value)) (uuid : string)
    : option objects.Chassis :=
  row_object <$> List.find (has_uuid (VStr uuid)) db.

(** Lists the rows in stored order, at most [limit] of them. *)
Definition list_rows (db : list (gmap string value)) (limit : Z)
    (marker : option objects.Chassis) (sort_key sort_dir : string)
    : exn + list objects.Chassis :=
  inr (row_object <$> take (Z.to_nat limit) db).

(** Writes the changed fields of the object to its row. *)
Definition save_row (o : objects.Chassis) (db : list (gmap string value))
    : exn + (objects.Chassis * list (gmap string value)) :=
  match objects.obj_values o !! "uuid" with
  | Some uuid =>
      let updates :=
        filter (λ kv, kv.1 ∈ objects.obj_changes o) (objects.obj_values o) in
      inr (row_object (objects.obj_values o),
           (λ row, if has_uuid uuid row then updates ∪ row else row) <$> db)
  | None => inl (Raised "NotImplementedError" "uuid")
  end.

(** One operation on a top-level field; [replace] and [remove] need the
    field to be there. *)
Definition apply_op (doc : gmap string value) (p : ChassisPatchType)
    : exn + gmap string value :=
  match path p with
  | String "/" key =>
      if bool_decide (op p = "add") then inr (<[key := patch_value p]> doc)
      else if bool_decide (op p = "replace") then
        match doc !! key with
        | Some _ => inr (<[key := patch_value p]> doc)
        | None => inl (Raised "JsonPatchException" ("can't replace " +:+ key))
        end
      else if bool_decide (op p = "remove") then
        match doc !! key with
        | Some _ => inr (delete key doc)
        | None => inl (Raised "JsonPatchException" ("can't remove " +:+ key))
        end
      else inl (Raised "JsonPatchException" ("unknown operation " +:+ op p))
  | _ => inl (Raised "JsonPointerException" (path p))
  end.

Fixpoint apply_ops (doc : gmap string value) (patch : list ChassisPatchType)
    : exn + gmap string value :=
  match patch with
  | [] => inr doc
  | p :: patch => doc ← apply_op doc p; apply_ops doc patch
  end.

Definition is_jsonpatch_exception (e : exn) : bool :=
  match e with
  | Raised cls _ =>
      bool_decide
        (cls ∈ ["JsonPatchException"; "JsonPointerException"; "KeyError"])
  | _ => false
  end.

(** Clears every field of [self.fields] that the filter does not name. *)
Definition clear_except (c : Chassis) (except_list : list string) : Chassis :=
  foldl (λ self k,
           if bool_decide (k ∈ except_list) then self
           else base.setattr self k Unset)
        c (fields c).

(** A next link iff the page is full (section 4.5). *)
Definition next_link (type : string) (items : list Chassis) (limit : Z)
    (url : option string) (sort_key sort_dir : string) : value :=
  match last items with
  | Some item =>
      if bool_decide (Z.of_nat (length items) = limit)
      then
        match base.getattr item "uuid" with
        | inr (VStr uuid) =>
            VStr (default type url +:+ "?sort_key=" +:+ sort_key
                  +:+ "&sort_dir=" +:+ sort_dir +:+ "&marker=" +:+ uuid)
        | _ => VStr (default type url)
        end
      else Unset
  | None => Unset
  end.

Definition env : Env :=
  {| DB := list (gmap string value);
     Chassis_fields :=
       ["id"; "uuid"; "extra"; "description"; "created_at"; "updated_at"];
     db_get_by_uuid := lookup_row;
     db_list := list_rows;
     db_save := save_row;
     api_version_prefix := "v1";
     max_limit := 1000;
     check_allow_specify_fields := λ _, inr ();
     apply_jsonpatch := apply_ops;
     JSONPATCH_EXCEPTIONS := is_jsonpatch_exception;
     unset_fields_except := clear_except;
     get_next := next_link |}.

(** Two stored chassis. *)
Definition rack_a : gmap string value :=
  list_to_map
    [("id", VInt 1);
     ("uuid", VStr "eaaca217-e7d8-47b4-bb41-3f99f20eed89");
     ("extra", VDict []);
     ("description", VStr "rack A");
     ("created_at", VTime 946728000);
     ("updated_at", VNone)].

Definition rack_b : gmap string value :=
  list_to_map
    [("id", VInt 2);
     ("uuid", VStr "1be26c0b-03f2-4d2e-ae87-c02d7f33c123");
     ("extra", VDict [("location", VStr "dc-2")]);
     ("description", VNone);
     ("created_at", VTime 946728060);
     ("updated_at", VNone)].

Definition db : list (gmap string value) := [rack_a; rack_b].

Definition req : Request :=
  {| host_url := "http://localhost:6385";
     request_path := "/v1/chassis/detail" |}.

End demo.


(** * Properties *)

(** ** Attribute access *)

Lemma getattr_declared (c : Chassis) (a : string) :
  a ∈ base.Chassis_attributes →
  base.getattr c a = inr (default Unset (attrs c !! a)).
Proof. intros Ha. unfold base.getattr. by rewrite bool_decide_eq_true_2. Qed.

Lemma getattr_undeclared (c : Chassis) (a : string) :
  a ∉ base.Chassis_attributes → base.getattr c a = inl (AttributeError a).
Proof. intros Ha. unfold base.getattr. by rewrite bool_decide_eq_false_2. Qed.

Lemma getattr_inr_declared (c : Chassis) (a : string) (v : value) :
  base.getattr c a = inr v → a ∈ base.Chassis_attributes.
Proof.
  unfold base.getattr. case_bool_decide; [done | discriminate].
Qed.

Lemma setattr_lookup (c : Chassis) (a b : string) (v : value) :
  default Unset (attrs (base.setattr c a v) !! b)
  = if decide (a = b) then v else default Unset (attrs c !! b).
Proof.
  unfold base.setattr; simpl. destruct (decide (v = Unset)) as [->|Hv].
  - rewrite lookup_delete. by destruct (decide (a = b)).
  - rewrite lookup_insert. by destruct (decide (a = b)).
Qed.

Lemma getattr_setattr_eq (c : Chassis) (a : string) (v : value) :
  a ∈ base.Chassis_attributes → base.getattr (base.setattr c a v) a = inr v.
Proof.
  intros Ha. rewrite getattr_declared by done. rewrite setattr_lookup.
  by rewrite decide_True.
Qed.

Lemma getattr_setattr_ne (c : Chassis) (a b : string) (v : value) :
  a ≠ b → base.getattr (base.setattr c a v) b = base.getattr c b.
Proof.
  intros Hab. unfold base.getattr. case_bool_decide; [|done].
  rewrite setattr_lookup. by rewrite decide_False.
Qed.

Lemma fields_setattr (c : Chassis) (a : string) (v : value) :
  fields (base.setattr c a v) = fields c.
Proof. done. Qed.

(** ** The constructor *)

Section init.
Context `{Env}.
Implicit Types (kwargs : gmap string value) (c : Chassis) (a : string).

Lemma init_step_getattr kwargs c x a :
  base.getattr (Chassis.init_step kwargs c x) a
  = if decide (a = x ∧ a ∈ base.Chassis_attributes)
    then inr (default Unset (kwargs !! a))
    else base.getattr c a.
Proof.
  unfold Chassis.init_step, base.hasattr. case_bool_decide as Hx; simpl.
  - destruct (decide (a = x)) as [->|Hne].
    + rewrite decide_True by done. by rewrite getattr_setattr_eq.
    + rewrite decide_False by (intros [? _]; done).
      by rewrite getattr_setattr_ne.
  - rewrite decide_False; [done|]. intros [-> ?]. done.
Qed.

Lemma init_fold_getattr kwargs l c a :
  base.getattr (foldl (Chassis.init_step kwargs) c l) a
  = if decide (a ∈ l ∧ a ∈ base.Chassis_attributes)
    then inr (default Unset (kwargs !! a))
    else base.getattr c a.
Proof.
  revert c. induction l as [|x l IH]; intros c; cbn [foldl].
  - case_decide as Hd; [|done]. destruct Hd as [Hin _]. by apply elem_of_nil in Hin.
  - rewrite IH, init_step_getattr.
    repeat case_decide; try done; exfalso; set_solver.
Qed.

Lemma init_fold_fields kwargs l c :
  fields (foldl (Chassis.init_step kwargs) c l)
  = (fields c ++ filter (λ f, f ∈ base.Chassis_attributes) l)%list.
Proof.
  revert c. induction l as [|x l IH]; intros c; cbn [foldl].
  - by rewrite filter_nil, app_nil_r.
  - rewrite IH. unfold Chassis.init_step, base.hasattr.
    case_bool_decide as Hx; simpl.
    + rewrite filter_cons_True by done. by rewrite <- app_assoc.
    + by rewrite filter_cons_False.
Qed.

(** What the constructed instance holds: every declared attribute that is
    also a record field reads as the keyword argument, or as [Unset]
    when there is none; the other declared attributes are unset. *)
Lemma init_getattr kwargs a :
  base.getattr (Chassis.__init__ kwargs) a
  = if decide (a ∈ base.Chassis_attributes)
    then inr (if decide (a ∈ Chassis_fields)
              then default Unset (kwargs !! a) else Unset)
    else inl (AttributeError a).
Proof.
  unfold Chassis.__init__.
  rewrite init_fold_getattr.
  destruct (decide (a ∈ base.Chassis_attributes)) as [Ha|Ha].
  - destruct (decide (a ∈ Chassis_fields)).
    + by rewrite decide_True.
    + rewrite decide_False by naive_solver. by rewrite getattr_declared.
  - rewrite decide_False by naive_solver. by apply getattr_undeclared.
Qed.

Lemma init_fields kwargs :
  fields (Chassis.__init__ kwargs)
  = filter (λ f, f ∈ base.Chassis_attributes) Chassis_fields.
Proof.
  unfold Chassis.__init__.
  by rewrite init_fold_fields.
Qed.

End init.

(** ** Link synthesis *)

Section links.
Context `{Env}.

(** The self and bookmark links of the resource path [args] under
    [chassis]. *)
Definition link_pair (url args : string) : value :=
  VList [VLink {| href := link.build_url "chassis" args false url;
                  rel := "self" |};
         VLink {| href := link.build_url "chassis" args true url;
                  rel := "bookmark" |}].

Lemma convert_unfiltered (c : Chassis) (url u : string) :
  base.getattr c "uuid" = inr (VStr u) →
  Chassis._convert_with_links c url None
  = inr (base.setattr
           (base.setattr c "nodes" (link_pair url (u +:+ "/nodes")))
           "links" (link_pair url u)).
Proof. intros Hu. unfold Chassis._convert_with_links. by rewrite Hu. Qed.

Lemma convert_filtered (c : Chassis) (url u : string) (fs : list string) :
  base.getattr c "uuid" = inr (VStr u) →
  Chassis._convert_with_links c url (Some fs)
  = inr (base.setattr (unset_fields_except c fs) "links" (link_pair url u)).
Proof. intros Hu. unfold Chassis._convert_with_links. by rewrite Hu. Qed.

(** No representation is produced unless the saved uuid is a string. *)
Lemma convert_inr_uuid (c r : Chassis) (url : string)
    (fs : option (list string)) :
  Chassis._convert_with_links c url fs = inr r →
  ∃ u, base.getattr c "uuid" = inr (VStr u).
Proof.
  unfold Chassis._convert_with_links.
  destruct (base.getattr c "uuid") as [e|v]; [discriminate|].
  destruct v; try (destruct fs; discriminate). eauto.
Qed.

End links.

Lemma links_declared : "links" ∈ base.Chassis_attributes.
Proof. apply (bool_decide_unpack _). by vm_compute. Qed.

Lemma nodes_declared : "nodes" ∈ base.Chassis_attributes.
Proof. apply (bool_decide_unpack _). by vm_compute. Qed.

Lemma uuid_declared : "uuid" ∈ base.Chassis_attributes.
Proof. apply (bool_decide_unpack _). by vm_compute. Qed.

(** C8: every representation that [_convert_with_links] produces without a
    field filter has a [links] attribute of exactly two entries, a self
    link and a bookmark link, and a [nodes] attribute of exactly two
    entries, a self link and a bookmark link; one is produced whenever the
    chassis has a string uuid. *)
Theorem unfiltered_links_and_nodes `{Env} (c : Chassis) (url : string) :
  (∀ u, base.getattr c "uuid" = inr (VStr u) →
        ∃ r, Chassis._convert_with_links c url None = inr r) ∧
  (∀ r, Chassis._convert_with_links c url None = inr r →
        ∃ l1 l2 n1 n2,
          base.getattr r "links" = inr (VList [VLink l1; VLink l2]) ∧
          rel l1 = "self" ∧ rel l2 = "bookmark" ∧
          base.getattr r "nodes" = inr (VList [VLink n1; VLink n2]) ∧
          rel n1 = "self" ∧ rel n2 = "bookmark").
Proof.
  split.
  - intros u Hu. rewrite (convert_unfiltered _ _ _ Hu). eauto.
  - intros r Hr. destruct (convert_inr_uuid _ _ _ _ Hr) as [u Hu].
    rewrite (convert_unfiltered _ _ _ Hu) in Hr. injection Hr as <-.
    eexists _, _, _, _. split; [|split; [|split; [|split; [|split]]]].
    + rewrite getattr_setattr_eq by apply links_declared. reflexivity.
    + reflexivity.
    + reflexivity.
    + rewrite getattr_setattr_ne by done.
      rewrite getattr_setattr_eq by apply nodes_declared. reflexivity.
    + reflexivity.
    + reflexivity.
Qed.

Lemma unfiltered_links_and_nodes_witness :
  ∃ r l1 l2 n1 n2,
    @Chassis.sample demo.env true = inr r ∧
    base.getattr r "links" = inr (VList [VLink l1; VLink l2]) ∧
    rel l1 = "self" ∧ rel l2 = "bookmark" ∧
    base.getattr r "nodes" = inr (VList [VLink n1; VLink n2]) ∧
    rel n1 = "self" ∧ rel n2 = "bookmark".
Proof.
  pose proof (@unfiltered_links_and_nodes demo.env
    (@Chassis.__init__ demo.env (list_to_map
                  [("uuid", VStr "eaaca217-e7d8-47b4-bb41-3f99f20eed89");
                   ("extra", VDict []);
                   ("description", VStr "Sample chassis");
                   ("created_at", VTime 946728000);
                   ("updated_at", VTime 946728000)]))
    "http://localhost:6385") as [Hex Hall].
  destruct (Hex "eaaca217-e7d8-47b4-bb41-3f99f20eed89") as [r Hr];
    [vm_compute; reflexivity|].
  destruct (Hall r Hr) as (l1 & l2 & n1 & n2 & HH).
  exists r, l1, l2, n1, n2. split; [exact Hr | exact HH].
Defined.

(** ** Conversion of a record *)

Section convert.
Context `{Env}.

(** The uuid that [convert_with_links] saves is the record's. *)
Lemma init_uuid (rpc : objects.Chassis) (u : string) :
  base.getattr (Chassis.__init__ (objects.as_dict rpc)) "uuid" = inr (VStr u)
  ↔ "uuid" ∈ Chassis_fields ∧ objects.obj_values rpc !! "uuid" = Some (VStr u).
Proof.
  rewrite init_getattr. rewrite decide_True by apply uuid_declared.
  unfold objects.as_dict. case_decide as Hf.
  - destruct (objects.obj_values rpc !! "uuid") as [v|] eqn:Hv; simpl;
      naive_solver.
  - naive_solver.
Qed.

Lemma convert_record_unfiltered (req : Request) (rpc : objects.Chassis)
    (u : string) :
  "uuid" ∈ Chassis_fields →
  objects.obj_values rpc !! "uuid" = Some (VStr u) →
  Chassis.convert_with_links req rpc None
  = inr (base.setattr
           (base.setattr (Chassis.__init__ (objects.as_dict rpc)) "nodes"
              (link_pair (host_url req) (u +:+ "/nodes")))
           "links" (link_pair (host_url req) u)).
Proof.
  intros Hf Hu. unfold Chassis.convert_with_links; simpl.
  apply convert_unfiltered. by apply init_uuid.
Qed.

Lemma convert_record_inr_uuid (req : Request) (rpc : objects.Chassis)
    (fs : option (list string)) (rep : Chassis) :
  Chassis.convert_with_links req rpc fs = inr rep →
  ∃ u, "uuid" ∈ Chassis_fields ∧
       objects.obj_values rpc !! "uuid" = Some (VStr u).
Proof.
  unfold Chassis.convert_with_links. intros Hrep.
  destruct fs as [fs|]; simpl in Hrep.
  - destruct (api_utils.check_for_invalid_fields _ _) as [e|[]]; [discriminate|].
    simpl in Hrep. apply convert_inr_uuid in Hrep as [u Hu].
    exists u. by apply init_uuid.
  - apply convert_inr_uuid in Hrep as [u Hu]. exists u. by apply init_uuid.
Qed.

End convert.

(** C7: round trip.  Converting a record without a field filter and
    reading back an exposed field other than the synthesized [links] and
    [nodes] yields the record's value for that field; the exposed fields
    are the record fields the class declares an attribute for, and the
    conversion succeeds for every record with a string uuid. *)
Theorem convert_round_trip `{Env} (req : Request) (rpc : objects.Chassis) :
  (∀ u, "uuid" ∈ Chassis_fields →
        objects.obj_values rpc !! "uuid" = Some (VStr u) →
        ∃ rep, Chassis.convert_with_links req rpc None = inr rep) ∧
  (∀ rep, Chassis.convert_with_links req rpc None = inr rep →
     fields rep = filter (λ f, f ∈ base.Chassis_attributes) Chassis_fields ∧
     ∀ f v, f ∈ fields rep → f ≠ "links" → f ≠ "nodes" →
            objects.obj_values rpc !! f = Some v →
            base.getattr rep f = inr v).
Proof.
  split.
  - intros u Hf Hu. rewrite (convert_record_unfiltered _ _ _ Hf Hu). eauto.
  - intros rep Hrep.
    destruct (convert_record_inr_uuid _ _ _ _ Hrep) as (u & Hf & Hu).
    rewrite (convert_record_unfiltered _ _ _ Hf Hu) in Hrep.
    injection Hrep as <-.
    rewrite !fields_setattr, init_fields. split; [done|].
    intros f v Hin Hl Hn Hv.
    apply list_elem_of_filter in Hin as [Ha Hfield].
    rewrite !getattr_setattr_ne by done.
    rewrite init_getattr, !decide_True by done.
    unfold objects.as_dict. by rewrite Hv.
Qed.

Lemma convert_round_trip_witness :
  ∃ rep,
    @Chassis.convert_with_links demo.env demo.req
      (demo.row_object demo.rack_b) None = inr rep ∧
    fields rep = ["uuid"; "extra"; "description"; "created_at"; "updated_at"] ∧
    base.getattr rep "uuid"
      = inr (VStr "1be26c0b-03f2-4d2e-ae87-c02d7f33c123") ∧
    base.getattr rep "extra" = inr (VDict [("location", VStr "dc-2")]) ∧
    base.getattr rep "description" = inr VNone ∧
    base.getattr rep "created_at" = inr (VTime 946728060) ∧
    base.getattr rep "updated_at" = inr VNone.
Proof.
  destruct (@convert_round_trip demo.env demo.req
              (demo.row_object demo.rack_b)) as [Hex Hall].
  destruct (Hex "1be26c0b-03f2-4d2e-ae87-c02d7f33c123") as [rep Hrep];
    [apply (bool_decide_unpack _); by vm_compute | by vm_compute |].
  destruct (Hall rep Hrep) as [Hfields Hread].
  exists rep. split; [exact Hrep|]. split; [rewrite Hfields; by vm_compute|].
  repeat split; apply Hread; try done;
    rewrite Hfields; apply (bool_decide_unpack _); by vm_compute.
Defined.

(** ** The reference environment meets the contracts *)

Lemma clear_fold_getattr (except_list l : list string) (c : Chassis)
    (a : string) :
  base.getattr
    (foldl (λ self k, if bool_decide (k ∈ except_list) then self
                      else base.setattr self k Unset) c l) a
  = if decide (a ∈ l ∧ a ∉ except_list ∧ a ∈ base.Chassis_attributes)
    then inr Unset else base.getattr c a.
Proof.
  revert c. induction l as [|k l IH]; intros c; cbn [foldl].
  - case_decide as Hd; [|done]. destruct Hd as [Hin _].
    by apply elem_of_nil in Hin.
  - rewrite IH. case_bool_decide as Hk.
    + repeat case_decide; try done; exfalso; set_solver.
    + destruct (decide (a = k)) as [->|Hne].
      * destruct (decide (k ∈ base.Chassis_attributes)) as [Hd|Hd].
        -- rewrite getattr_setattr_eq by done.
           repeat case_decide; try done; exfalso; set_solver.
        -- rewrite !getattr_undeclared by done.
           repeat case_decide; try done; exfalso; naive_solver.
      * rewrite getattr_setattr_ne by done.
        repeat case_decide; try done; exfalso; set_solver.
Qed.

Lemma demo_projection_contract : @base.projection_contract demo.env.
Proof.
  intros c fs a. simpl. unfold demo.clear_except.
  rewrite clear_fold_getattr. case_decide as Hd; [|by auto].
  split; [|by auto]. intros Ha. naive_solver.
Qed.

Lemma demo_nodes_not_a_field : "nodes" ∉ @Chassis_fields demo.env.
Proof. apply (bool_decide_unpack _). by vm_compute. Qed.

(** What a conversion with a field filter leaves in [links] and
    [nodes]. *)
Lemma convert_record_filtered `{Env} (req : Request) (rpc : objects.Chassis)
    (fs : list string) (rep : Chassis) :
  base.projection_contract →
  "nodes" ∉ Chassis_fields →
  Chassis.convert_with_links req rpc (Some fs) = inr rep →
  ∃ u, objects.obj_values rpc !! "uuid" = Some (VStr u) ∧
       base.getattr rep "links" = inr (link_pair (host_url req) u) ∧
       base.getattr rep "nodes" = inr Unset.
Proof.
  intros Hproj Hnodes Hrep.
  destruct (convert_record_inr_uuid _ _ _ _ Hrep) as (u & Hf & Hu).
  exists u. split; [done|].
  unfold Chassis.convert_with_links in Hrep.
  destruct (api_utils.check_for_invalid_fields _ _) as [e|[]];
    [discriminate|]. simpl in Hrep.
  rewrite (convert_filtered _ _ u) in Hrep by by apply init_uuid.
  injection Hrep as <-. split.
  - by rewrite getattr_setattr_eq by apply links_declared.
  - rewrite getattr_setattr_ne by done.
    destruct (Hproj (Chassis.__init__ (objects.as_dict rpc)) fs "nodes")
      as [_ [Hkeep|Hclear]]; [|done].
    rewrite Hkeep, init_getattr.
    rewrite decide_True by apply nodes_declared. by rewrite decide_False.
Qed.

(** C1: a record converted with a field filter gets its self and bookmark
    links all the same, built from the record's uuid as saved before the
    projection, whatever the filter names (so also when it does not name
    [uuid] and the projection clears it), while its [nodes] attribute
    stays unset. *)
Theorem filtered_links_without_nodes `{Env} (req : Request)
    (rpc : objects.Chassis) (fs : list string) :
  base.projection_contract →
  "nodes" ∉ Chassis_fields →
  (∀ u, "uuid" ∈ Chassis_fields →
        objects.obj_values rpc !! "uuid" = Some (VStr u) →
        api_utils.check_for_invalid_fields fs
          (base.as_dict (Chassis.__init__ (objects.as_dict rpc))) = inr () →
        ∃ rep, Chassis.convert_with_links req rpc (Some fs) = inr rep) ∧
  (∀ rep, Chassis.convert_with_links req rpc (Some fs) = inr rep →
     ∃ u, objects.obj_values rpc !! "uuid" = Some (VStr u) ∧
          base.getattr rep "links" = inr (link_pair (host_url req) u) ∧
          base.getattr rep "nodes" = inr Unset).
Proof.
  intros Hproj Hnodes. split.
  - intros u Hf Hu Hcheck. unfold Chassis.convert_with_links.
    rewrite Hcheck; simpl.
    rewrite (convert_filtered _ _ u); [eauto|]. by apply init_uuid.
  - intros rep Hrep. by eapply convert_record_filtered.
Qed.

Lemma filtered_links_without_nodes_witness :
  ∃ rep,
    @Chassis.convert_with_links demo.env demo.req
      (demo.row_object demo.rack_a) (Some ["description"]) = inr rep ∧
    base.getattr rep "uuid" = inr Unset ∧
    base.getattr rep "description" = inr (VStr "rack A") ∧
    base.getattr rep "links"
      = inr (@link_pair demo.env "http://localhost:6385"
               "eaaca217-e7d8-47b4-bb41-3f99f20eed89") ∧
    base.getattr rep "nodes" = inr Unset.
Proof.
  destruct (@filtered_links_without_nodes demo.env demo.req
              (demo.row_object demo.rack_a) ["description"]
              demo_projection_contract demo_nodes_not_a_field)
    as [Hex Hall].
  destruct (Hex "eaaca217-e7d8-47b4-bb41-3f99f20eed89") as [rep Hrep];
    [apply (bool_decide_unpack _); by vm_compute | by vm_compute
    | by vm_compute |].
  destruct (Hall rep Hrep) as (u & Hu & Hlinks & Hnodes).
  assert (u = "eaaca217-e7d8-47b4-bb41-3f99f20eed89") as ->.
  { vm_compute in Hu. by injection Hu. }
  exists rep. split; [exact Hrep|].
  split; [|split; [|split; [exact Hlinks | exact Hnodes]]].
  - revert Hrep. vm_compute. by intros [= <-].
  - revert Hrep. vm_compute. by intros [= <-].
Defined.

(** ** The update loop *)

Section update.
Context `{Env}.
Implicit Types (chassis : Chassis) (rpc : objects.Chassis) (f g : string).

(** [None] standing for [Unset]. *)
Definition none_if_unset (v : value) : value :=
  if decide (v = Unset) then VNone else v.

(** The value the loop compares and assigns for a declared attribute:
    what the representation holds, [None] standing for [Unset]. *)
Definition patch_val chassis f : value :=
  match base.getattr chassis f with
  | inr v => none_if_unset v
  | inl _ => VNone
  end.

Lemma patch_field_spec chassis rpc f :
  (f ∈ base.Chassis_attributes → is_Some (objects.obj_values rpc !! f)) →
  ∃ rpc1,
    ChassisController.patch_field chassis rpc f = inr rpc1 ∧
    (∀ g, objects.obj_values rpc1 !! g
          = if decide (g = f ∧ g ∈ base.Chassis_attributes)
            then Some (patch_val chassis g)
            else objects.obj_values rpc !! g) ∧
    (∀ g, g ∈ objects.obj_changes rpc1 ↔
          g ∈ objects.obj_changes rpc ∨
          (g = f ∧ g ∈ base.Chassis_attributes ∧
           objects.obj_values rpc !! g ≠ Some (patch_val chassis g))).
Proof.
  intros Hval. unfold ChassisController.patch_field.
  destruct (decide (f ∈ base.Chassis_attributes)) as [Ha|Ha].
  - destruct (Hval Ha) as [cur Hcur].
    unfold patch_val, none_if_unset. rewrite (getattr_declared _ _ Ha).
    set (pv := if decide (default Unset (attrs chassis !! f) = Unset)
               then VNone else default Unset (attrs chassis !! f)).
    unfold objects.getitem. rewrite Hcur; simpl.
    destruct (decide (cur ≠ pv)) as [Hne|Heq].
    + eexists. split; [done|]. split; intros g; simpl.
      * rewrite lookup_insert. destruct (decide (f = g)) as [<-|Hfg].
        -- rewrite decide_True by done.
           by rewrite (getattr_declared _ _ Ha).
        -- by rewrite decide_False by naive_solver.
      * rewrite elem_of_union, elem_of_singleton. split.
        -- intros [->|Hin]; [|by left]. right.
           rewrite (getattr_declared _ _ Ha), Hcur. naive_solver.
        -- naive_solver.
    + apply dec_stable in Heq. subst cur.
      eexists. split; [done|]. split; intros g.
      * case_decide as Hd; [|done]. destruct Hd as [-> _].
        by rewrite (getattr_declared _ _ Ha).
      * split; [by left|]. intros [Hin|(-> & _ & Hdiff)]; [done|].
        exfalso. apply Hdiff. by rewrite (getattr_declared _ _ Ha).
  - rewrite (getattr_undeclared _ _ Ha).
    eexists. split; [done|]. split; intros g.
    + by rewrite decide_False by naive_solver.
    + naive_solver.
Qed.

(** The loop over a list of fields, from any starting object: it does
    not fail when the object holds a value for each declared attribute
    among them, every such field ends up holding the patched value, and
    the fields recorded as changed are the earlier ones and those whose
    original value differs from the patched one. *)
Lemma update_changed_fields_spec chassis l rpc :
  (∀ f, f ∈ l → f ∈ base.Chassis_attributes →
        is_Some (objects.obj_values rpc !! f)) →
  ∃ rpc',
    ChassisController.update_changed_fields chassis rpc l = inr rpc' ∧
    (∀ g, objects.obj_values rpc' !! g
          = if decide (g ∈ l ∧ g ∈ base.Chassis_attributes)
            then Some (patch_val chassis g)
            else objects.obj_values rpc !! g) ∧
    (∀ g, g ∈ objects.obj_changes rpc' ↔
          g ∈ objects.obj_changes rpc ∨
          (g ∈ l ∧ g ∈ base.Chassis_attributes ∧
           objects.obj_values rpc !! g ≠ Some (patch_val chassis g))).
Proof.
  revert rpc. induction l as [|f l IH]; intros rpc Hval;
    cbn [ChassisController.update_changed_fields].
  - eexists. split; [done|]. split; intros g.
    + case_decide as Hd; [|done]. destruct Hd as [Hin _].
      by apply elem_of_nil in Hin.
    + split; [by left|]. intros [?|(Hin & _)]; [done|].
      by apply elem_of_nil in Hin.
  - destruct (patch_field_spec chassis rpc f) as (rpc1 & -> & Hv1 & Hc1).
    { intros Ha. apply Hval; [left|done]. }
    cbn [mbind exn_bind]. destruct (IH rpc1) as (rpc' & -> & Hv' & Hc').
    { intros g Hg Ha. rewrite Hv1. case_decide; [done|].
      apply Hval; [by right|done]. }
    exists rpc'. split; [done|]. split; intros g.
    + rewrite Hv', Hv1.
      repeat case_decide; try done; exfalso; set_solver.
    + rewrite Hc', Hc1, Hv1. rewrite elem_of_cons.
      case_decide as Hd; naive_solver.
Qed.

End update.

Section patch.
Context `{Env}.

(** [patch] on a record that exists and a patch that applies: the loop
    runs on the reconstructed representation, and the object it leaves
    is the one saved. *)
Lemma patch_applied (req : Request) (chassis_uuid : string)
    (p : list ChassisPatchType) (db : DB) (rpc rpc' : objects.Chassis)
    (patched : gmap string value) :
  ChassisController.get_by_uuid db chassis_uuid = inr rpc →
  apply_jsonpatch (objects.as_dict rpc) p = inr patched →
  ChassisController.update_changed_fields (Chassis.__init__ patched) rpc
    Chassis_fields = inr rpc' →
  ChassisController.patch req chassis_uuid p db
  = match db_save rpc' db with
    | inl e => (inl e, db)
    | inr (saved, db') => (Chassis.convert_with_links req saved None, db')
    end.
Proof.
  intros Hget Hpatch Hloop. unfold ChassisController.patch.
  rewrite Hget, Hpatch, Hloop. by destruct (db_save rpc' db) as [e|[??]].
Qed.

Lemma patch_val_init (patched : gmap string value) (f : string) :
  f ∈ Chassis_fields → f ∈ base.Chassis_attributes →
  patch_val (Chassis.__init__ patched) f
  = none_if_unset (default Unset (patched !! f)).
Proof.
  intros Hf Ha. unfold patch_val. rewrite init_getattr.
  by rewrite !decide_True.
Qed.

End patch.



(** C3: when applying the patch document to the record's dict form raises
    one of the JSON-patch exceptions, the update fails with [PatchError]
    carrying the patch and that exception, and the store is the one the
    request found: nothing was assigned or saved. *)
Theorem patch_error_keeps_store `{Env} (req : Request) (chassis_uuid : string)
    (p : list ChassisPatchType) (db : DB) (rpc : objects.Chassis) (e : exn) :
  ChassisController.get_by_uuid db chassis_uuid = inr rpc →
  apply_jsonpatch (objects.as_dict rpc) p = inl e →
  JSONPATCH_EXCEPTIONS e = true →
  ChassisController.patch req chassis_uuid p db = (inl (PatchError p e), db) ∧
  classify (PatchError p e) = PatchErrorC.
Proof.
  intros Hget Hpatch Hexc. unfold ChassisController.patch.
  by rewrite Hget, Hpatch, Hexc.
Qed.




Lemma patch_error_keeps_store_witness :
  @ChassisController.patch demo.env demo.req
    "eaaca217-e7d8-47b4-bb41-3f99f20eed89"
    [{| op := "replace"; path := "/colour"; patch_value := VStr "red" |}]
    demo.db
  = (inl (PatchError
            [{| op := "replace"; path := "/colour";
                patch_value := VStr "red" |}]
            (Raised "JsonPatchException" "can't replace colour")),
     demo.db) ∧
  classify (PatchError
              [{| op := "replace"; path := "/colour";
                  patch_value := VStr "red" |}]
              (Raised "JsonPatchException" "can't replace colour"))
  = PatchErrorC.
Proof.
  apply (@patch_error_keeps_store demo.env demo.req
           "eaaca217-e7d8-47b4-bb41-3f99f20eed89"
           [{| op := "replace"; path := "/colour"; patch_value := VStr "red" |}]
           demo.db (demo.row_object demo.rack_a)).
  - by vm_compute.
  - by vm_compute.
  - by vm_compute.
Defined.

(** ** Collection listings *)

Section mapM.
Context {A B : Type} (f : A → exn + B).

Lemma mapM_inr_Forall2 (l : list A) (ys : list B) :
  mapM f l = inr ys ↔ Forall2 (λ x y, f x = inr y) l ys.
Proof.
  revert ys. induction l as [|x l IH]; intros ys; simpl.
  - split.
    + intros [= <-]. constructor.
    + by inversion 1.
  - split.
    + destruct (f x) as [e|y] eqn:Hx; simpl; [discriminate|].
      destruct (mapM f l) as [e|k] eqn:Hl; simpl; [discriminate|].
      intros [= <-]. constructor; [done|]. by apply IH.
    + inversion 1 as [|? y ? k Hx Hl]; subst. rewrite Hx; simpl.
      apply IH in Hl. by rewrite Hl.
Qed.

End mapM.

Section listing.
Context `{Env}.

(** The marker object of a request: none for an absent or empty marker,
    the record the marker identifies otherwise; undefined when the
    marker identifies no record. *)
Definition marker_object (db : DB) (marker : option string)
    : option (option objects.Chassis) :=
  match marker with
  | None | Some "" => Some None
  | Some m => Some <$> db_get_by_uuid db m
  end.

Lemma marker_resolved (db : DB) (marker : option string)
    (mo : option objects.Chassis) :
  marker_object db marker = Some mo ↔
  match marker with
  | None | Some "" => mret None
  | Some m =>
      marker_obj ← ChassisController.get_by_uuid db m;
      mret (Some marker_obj)
  end = inr mo.
Proof.
  unfold marker_object, ChassisController.get_by_uuid.
  destruct marker as [[|a m]|]; simpl.
  - split; intros [= <-]; done.
  - destruct (db_get_by_uuid db (String a m)); simpl;
      split; intros [= <-]; done.
  - split; intros [= <-]; done.
Qed.

Lemma collection_convert_inr (req : Request) (records : list objects.Chassis)
    (limit : Z) (url : option string) (fs : option (list string))
    (sort_key sort_dir : string) (col : ChassisCollection) :
  ChassisCollection.convert_with_links req records limit url fs sort_key
    sort_dir = inr col →
  Forall2 (λ rpc rep, Chassis.convert_with_links req rpc fs = inr rep)
    records (chassis col).
Proof.
  unfold ChassisCollection.convert_with_links.
  destruct (mapM _ records) as [e|items] eqn:Hitems; simpl; [discriminate|].
  intros [= <-]. simpl. by apply mapM_inr_Forall2.
Qed.


(** A listing that returns went through both validations, resolved its
    marker, passed the sort key check and converted what the store
    listed. *)
Lemma get_chassis_collection_inr (req : Request) (marker : option string)
    (limit : option Z) (sort_key sort_dir : string) (url : option string)
    (fs : option (list string)) (db : DB) (col : ChassisCollection) :
  ChassisController._get_chassis_collection req marker limit sort_key
    sort_dir url fs db = inr col →
  ∃ l sd mo records,
    api_utils.validate_limit limit = inr l ∧
    api_utils.validate_sort_dir sort_dir = inr sd ∧
    marker_object db marker = Some mo ∧
    sort_key ∉ ChassisController.invalid_sort_key_list ∧
    db_list db l mo sort_key sd = inr records ∧
    Forall2 (λ rpc rep, Chassis.convert_with_links req rpc fs = inr rep)
      records (chassis col).
Proof.
  unfold ChassisController._get_chassis_collection. intros Hcol.
  destruct (api_utils.validate_limit limit) as [e|l]; [discriminate|].
  destruct (api_utils.validate_sort_dir sort_dir) as [e|sd]; [discriminate|].
  cbn [mbind exn_bind] in Hcol.
  destruct (match marker with
            | None | Some "" => mret None
            | Some m =>
                marker_obj ← ChassisController.get_by_uuid db m;
                mret (Some marker_obj)
            end) as [e|mo] eqn:Hres; [discriminate|].
  pose proof (proj2 (marker_resolved db marker mo) Hres) as Hmo.
  cbn [mbind exn_bind] in Hcol.
  case_bool_decide as Hkey; [discriminate|].
  destruct (db_list db l mo sort_key sd) as [e|records] eqn:Hlist;
    [discriminate|].
  cbn [mbind exn_bind] in Hcol. apply collection_convert_inr in Hcol.
  by exists l, sd, mo, records.
Qed.


(** A marker that identifies nothing fails the listing once the limit
    and the sort direction are valid. *)
Lemma get_chassis_collection_unknown_marker (req : Request) (m : string)
    (limit : option Z) (sort_key sort_dir : string) (url : option string)
    (fs : option (list string)) (db : DB) (l : Z) (sd : string) :
  api_utils.validate_limit limit = inr l →
  api_utils.validate_sort_dir sort_dir = inr sd →
  m ≠ "" → db_get_by_uuid db m = None →
  ChassisController._get_chassis_collection req (Some m) limit sort_key
    sort_dir url fs db = inl (ResourceNotFound m).
Proof.
  intros Hl Hsd Hm Hnone. unfold ChassisController._get_chassis_collection.
  rewrite Hl, Hsd. cbn [mbind exn_bind].
  destruct m as [|a m]; [done|].
  unfold ChassisController.get_by_uuid. by rewrite Hnone.
Qed.


End listing.




(** C10, as the claim states it, fails: with a marker that identifies no
    chassis, a listing whose limit is not positive or whose sort direction
    is unknown fails in the validation that runs before the marker is
    looked up, with InvalidParameterValue and not ResourceNotFound. *)
Lemma unknown_marker_invalid_limit :
  @ChassisController.get_all demo.env demo.req
    (Some "00000000-0000-0000-0000-000000000000") (Some 0) "extra" "asc" None
    demo.db
  = inl (InvalidParameterValue "Limit must be positive") ∧
  @ChassisController.get_all demo.env demo.req
    (Some "00000000-0000-0000-0000-000000000000") None "extra" "sideways" None
    demo.db
  = inl (InvalidParameterValue "Invalid sort direction: sideways") ∧
  @db_get_by_uuid demo.env demo.db "00000000-0000-0000-0000-000000000000"
  = None ∧
  ∀ msg, classify (InvalidParameterValue msg) ≠ ResourceNotFoundC.
Proof. repeat split; try by vm_compute. Qed.

(** C10 (amended): the marker is resolved before the sort key is checked.
    In a listing whose limit and sort direction are valid, a non-empty
    marker that identifies no record fails the listing with
    ResourceNotFound whatever the sort key, disallowed or not; hence an
    InvalidParameterValue out of such a listing means that the marker was
    absent, empty or resolved. *)
Theorem unknown_marker_before_sort_key `{Env} (req : Request)
    (limit : option Z) (sort_key sort_dir : string) (url : option string)
    (fs : option (list string)) (db : DB) (l : Z) (sd : string) :
  api_utils.validate_limit limit = inr l →
  api_utils.validate_sort_dir sort_dir = inr sd →
  (∀ m, m ≠ "" → db_get_by_uuid db m = None →
        ChassisController._get_chassis_collection req (Some m) limit sort_key
          sort_dir url fs db = inl (ResourceNotFound m) ∧
        classify (ResourceNotFound m) = ResourceNotFoundC) ∧
  (∀ marker msg,
        ChassisController._get_chassis_collection req marker limit sort_key
          sort_dir url fs db = inl (InvalidParameterValue msg) →
        is_Some (marker_object db marker)).
Proof.
  intros Hl Hsd. split.
  - intros m Hm Hnone. split; [|done].
    by eapply get_chassis_collection_unknown_marker.
  - intros marker msg Hres.
    destruct (marker_object db marker) as [mo|] eqn:Hmo; [by eexists|].
    exfalso. unfold marker_object in Hmo.
    destruct marker as [[|a m]|]; try discriminate.
    destruct (db_get_by_uuid db (String a m)) as [o|] eqn:Hget;
      [discriminate|].
    rewrite (get_chassis_collection_unknown_marker _ _ _ _ _ _ _ _ l sd)
      in Hres by done.
    discriminate.
Qed.

Lemma unknown_marker_before_sort_key_witness :
  @ChassisController._get_chassis_collection demo.env demo.req
    (Some "00000000-0000-0000-0000-000000000000") (Some 5) "extra" "asc"
    None None demo.db
  = inl (ResourceNotFound "00000000-0000-0000-0000-000000000000") ∧
  classify (ResourceNotFound "00000000-0000-0000-0000-000000000000")
  = ResourceNotFoundC.
Proof.
  destruct (@unknown_marker_before_sort_key demo.env demo.req (Some 5)
              "extra" "asc" None None demo.db 5 "asc") as [Hunknown _].
  - by vm_compute.
  - by vm_compute.
  - apply Hunknown; [done | by vm_compute].
Defined.

(** C4, as the claim states it, fails both ways: in the reference
    environment the representations of the collection listing carry no
    [nodes] links, and the representation of the single-resource get
    carries them. *)
Lemma nodes_links_list_and_get :
  ∃ col rep,
    @ChassisController.get_all demo.env demo.req None None "id" "asc" None
      demo.db = inr col ∧
    length (chassis col) = 2%nat ∧
    Forall (λ c, base.getattr c "nodes" = inr Unset) (chassis col) ∧
    @ChassisController.get_one demo.env demo.req
      "eaaca217-e7d8-47b4-bb41-3f99f20eed89" None demo.db = inr rep ∧
    base.getattr rep "nodes"
    = inr (VList
             [VLink {| href := "http://localhost:6385/v1/chassis/eaaca217-e7d8-47b4-bb41-3f99f20eed89/nodes";
                       rel := "self" |};
              VLink {| href := "http://localhost:6385/chassis/eaaca217-e7d8-47b4-bb41-3f99f20eed89/nodes";
                       rel := "bookmark" |}]).
Proof.
  eexists _, _. split; [by vm_compute|]. split; [by vm_compute|].
  split; [repeat constructor|]. split; [by vm_compute|]. by vm_compute.
Qed.

(** C4 (amended): the [nodes] links are carried by the representations
    converted without a field filter, and by no other.  [get_all] always
    converts with a filter (the caller's, or [uuid] and [description] by
    default), so none of its representations carries them; [get_one]
    without [fields] and the [detail] listing carry the two links of the
    chassis; [get_one] with [fields] does not. *)
Theorem nodes_links_by_operation `{Env} (req : Request) (db : DB) :
  base.projection_contract →
  "nodes" ∉ Chassis_fields →
  (∀ marker limit sort_key sort_dir fs col,
     ChassisController.get_all req marker limit sort_key sort_dir fs db
       = inr col →
     Forall (λ rep, base.getattr rep "nodes" = inr Unset) (chassis col)) ∧
  (∀ chassis_uuid rpc u,
     check_allow_specify_fields None = inr () →
     db_get_by_uuid db chassis_uuid = Some rpc →
     "uuid" ∈ Chassis_fields →
     objects.obj_values rpc !! "uuid" = Some (VStr u) →
     ∃ rep, ChassisController.get_one req chassis_uuid None db = inr rep ∧
            base.getattr rep "nodes"
            = inr (link_pair (host_url req) (u +:+ "/nodes"))) ∧
  (∀ chassis_uuid rep,
     ChassisController.get_one req chassis_uuid None db = inr rep →
     ∃ u, base.getattr rep "nodes"
          = inr (link_pair (host_url req) (u +:+ "/nodes"))) ∧
  (∀ chassis_uuid fs rep,
     ChassisController.get_one req chassis_uuid (Some fs) db = inr rep →
     base.getattr rep "nodes" = inr Unset) ∧
  (∀ marker limit sort_key sort_dir col,
     ChassisController.detail req marker limit sort_key sort_dir db = inr col →
     Forall (λ rep, ∃ u, base.getattr rep "nodes"
                         = inr (link_pair (host_url req) (u +:+ "/nodes")))
       (chassis col)).
Proof.
  intros Hproj Hnodes.
  assert (∀ rpc rep, Chassis.convert_with_links req rpc None = inr rep →
            ∃ u, base.getattr rep "nodes"
                 = inr (link_pair (host_url req) (u +:+ "/nodes")))
    as Hfull.
  { intros rpc rep Hrep.
    destruct (convert_record_inr_uuid _ _ _ _ Hrep) as (u & Hf & Hu).
    rewrite (convert_record_unfiltered _ _ _ Hf Hu) in Hrep.
    injection Hrep as <-. exists u.
    rewrite getattr_setattr_ne by done.
    by rewrite getattr_setattr_eq by apply nodes_declared. }
  split; [|split; [|split; [|split]]].
  - intros marker limit sort_key sort_dir fs col Hcol.
    unfold ChassisController.get_all in Hcol.
    destruct (check_allow_specify_fields fs) as [e|[]]; [discriminate|].
    cbn [mbind exn_bind] in Hcol.
    apply get_chassis_collection_inr in Hcol
      as (l & sd & mo & records & _ & _ & _ & _ & _ & Hitems).
    induction Hitems as [|rpc rep records items Hrep _ IH]; constructor;
      [|done].
    by destruct (convert_record_filtered _ _ _ _ Hproj Hnodes Hrep)
      as (u & _ & _ & ?).
  - intros chassis_uuid rpc u Hcheck Hget Hf Hu.
    unfold ChassisController.get_one, ChassisController.get_by_uuid.
    rewrite Hcheck, Hget. cbn [mbind exn_bind].
    rewrite (convert_record_unfiltered _ _ _ Hf Hu). eexists. split; [done|].
    rewrite getattr_setattr_ne by done.
    by rewrite getattr_setattr_eq by apply nodes_declared.
  - intros chassis_uuid rep Hrep. unfold ChassisController.get_one in Hrep.
    destruct (check_allow_specify_fields None) as [e|[]]; [discriminate|].
    cbn [mbind exn_bind] in Hrep.
    destruct (ChassisController.get_by_uuid db chassis_uuid) as [e|rpc];
      [discriminate|].
    cbn [mbind exn_bind] in Hrep. by eapply Hfull.
  - intros chassis_uuid fs rep Hrep. unfold ChassisController.get_one in Hrep.
    destruct (check_allow_specify_fields (Some fs)) as [e|[]]; [discriminate|].
    cbn [mbind exn_bind] in Hrep.
    destruct (ChassisController.get_by_uuid db chassis_uuid) as [e|rpc];
      [discriminate|].
    cbn [mbind exn_bind] in Hrep.
    by destruct (convert_record_filtered _ _ _ _ Hproj Hnodes Hrep)
      as (u & _ & _ & ?).
  - intros marker limit sort_key sort_dir col Hcol.
    unfold ChassisController.detail in Hcol.
    destruct (ChassisController.parent_segment req) as [e|parent];
      [discriminate|].
    cbn [mbind exn_bind] in Hcol. case_bool_decide; [discriminate|].
    apply get_chassis_collection_inr in Hcol
      as (l & sd & mo & records & _ & _ & _ & _ & _ & Hitems).
    induction Hitems as [|rpc rep records items Hrep _ IH]; constructor;
      [|done].
    by eapply Hfull.
Qed.

Lemma nodes_links_by_operation_witness :
  ∃ rep,
    @ChassisController.get_one demo.env demo.req
      "1be26c0b-03f2-4d2e-ae87-c02d7f33c123" None demo.db = inr rep ∧
    base.getattr rep "nodes"
    = inr (@link_pair demo.env "http://localhost:6385"
             "1be26c0b-03f2-4d2e-ae87-c02d7f33c123/nodes").
Proof.
  destruct (@nodes_links_by_operation demo.env demo.req demo.db
              demo_projection_contract demo_nodes_not_a_field)
    as (_ & Hget & _).
  apply (Hget "1be26c0b-03f2-4d2e-ae87-c02d7f33c123"
           (demo.row_object demo.rack_b)
           "1be26c0b-03f2-4d2e-ae87-c02d7f33c123").
  - by vm_compute.
  - by vm_compute.
  - apply (bool_decide_unpack _). by vm_compute.
  - by vm_compute.
Defined.

(** ** The detail listing *)






(** * Further properties of chassis.py *)

(** ** The constructor and the dict form *)

Lemma foldl_ext_elem {A B} (f g : A → B → A) (l : list B) (a : A) :
  (∀ a x, x ∈ l → f a x = g a x) → foldl f a l = foldl g a l.
Proof.
  revert a. induction l as [|x l IH]; intros a Hfg; simpl; [done|].
  rewrite Hfg by left. apply IH. intros a' y Hy. apply Hfg. by right.
Qed.

(** X1: the representation that [Chassis.__init__] builds depends only on
    the keyword arguments named after declared record fields that the
    class has an attribute for: two dicts that agree on those build the
    same representation, so an entry under any other key, such as an
    internal field or [links], leaves no trace. *)
Theorem init_reads_exposed_fields_only `{Env} (kwargs1 kwargs2 : gmap string value) :
  (∀ f, f ∈ Chassis_fields → f ∈ base.Chassis_attributes →
        kwargs1 !! f = kwargs2 !! f) →
  Chassis.__init__ kwargs1 = Chassis.__init__ kwargs2.
Proof.
  intros Hagree. unfold Chassis.__init__. apply foldl_ext_elem.
  intros self f Hf. unfold Chassis.init_step, base.hasattr.
  case_bool_decide as Ha; simpl; [|done]. by rewrite Hagree.
Qed.

Lemma init_reads_exposed_fields_only_witness :
  @Chassis.__init__ demo.env
    (<["id" := VInt 7]> (<["links" := VStr "injected"]> demo.rack_a))
  = @Chassis.__init__ demo.env demo.rack_a.
Proof.
  apply (@init_reads_exposed_fields_only demo.env).
  intros f Hf Ha. rewrite !lookup_insert_ne; [done|..].
  - intros <-. revert Hf. apply (bool_decide_unpack _). by vm_compute.
  - intros <-. revert Ha. apply (bool_decide_unpack _). by vm_compute.
Defined.

Section as_dict.
Context `{Env}.

Lemma as_dict_lookup_Some (c : Chassis) (f : string) (v : value) :
  base.as_dict c !! f = Some v →
  f ∈ fields c ∧ base.getattr c f = inr v ∧ v ≠ Unset.
Proof.
  unfold base.as_dict. intros Hv. apply elem_of_list_to_map_2 in Hv.
  apply list_elem_of_omap in Hv as (k & Hk & Hkv).
  destruct (base.getattr c k) as [e|w] eqn:Hw; [discriminate|].
  case_decide; [discriminate|]. by simplify_eq.
Qed.

Lemma as_dict_lookup_is_Some (c : Chassis) (f : string) (v : value) :
  f ∈ fields c → base.getattr c f = inr v → v ≠ Unset →
  is_Some (base.as_dict c !! f).
Proof.
  intros Hf Hv Hne. unfold base.as_dict.
  apply not_eq_None_Some. intros Hnone.
  apply not_elem_of_list_to_map in Hnone. apply Hnone.
  apply list_elem_of_fmap. exists (f, v). split; [done|].
  apply list_elem_of_omap. exists f. split; [done|].
  rewrite Hv. by rewrite decide_False.
Qed.

(** The dict form of a freshly built representation: the exposed fields
    for which the keyword arguments hold a value other than [Unset]. *)
Lemma as_dict_init_is_Some (kwargs : gmap string value) (f : string) :
  is_Some (base.as_dict (Chassis.__init__ kwargs) !! f) ↔
  f ∈ Chassis_fields ∧ f ∈ base.Chassis_attributes ∧
  ∃ v, kwargs !! f = Some v ∧ v ≠ Unset.
Proof.
  split.
  - intros [v Hv]. apply as_dict_lookup_Some in Hv as (Hf & Hget & Hne).
    rewrite init_fields in Hf. apply list_elem_of_filter in Hf as [Ha Hf].
    rewrite init_getattr, !decide_True in Hget by done.
    split; [done|]. split; [done|]. exists v. split; [|done].
    destruct (kwargs !! f) as [w|]; simpl in Hget; by simplify_eq.
  - intros (Hf & Ha & v & Hv & Hne). apply (as_dict_lookup_is_Some _ _ v).
    + rewrite init_fields. by apply list_elem_of_filter.
    + rewrite init_getattr, !decide_True by done. by rewrite Hv.
    + done.
Qed.

Lemma check_for_invalid_fields_inr (fs : list string)
    (object_fields : gmap string value) :
  api_utils.check_for_invalid_fields fs object_fields = inr () ↔
  ∀ f, f ∈ fs → is_Some (object_fields !! f).
Proof.
  unfold api_utils.check_for_invalid_fields.
  destruct (filter _ fs) as [|x l] eqn:Hfilter.
  - split; [|done]. intros _ f Hf.
    apply not_eq_None_Some. intros Hnone.
    assert (f ∈ filter (λ f, object_fields !! f = None) fs) as Hin
      by by apply list_elem_of_filter.
    rewrite Hfilter in Hin. by apply elem_of_nil in Hin.
  - split; [discriminate|]. intros Hall.
    assert (x ∈ filter (λ f, object_fields !! f = None) fs) as Hin
      by (rewrite Hfilter; left).
    apply list_elem_of_filter in Hin as [Hnone Hx].
    destruct (Hall x Hx) as [v Hv]. congruence.
Qed.

Lemma check_for_invalid_fields_inl (fs : list string)
    (object_fields : gmap string value) (f : string) :
  f ∈ fs → object_fields !! f = None →
  ∃ msg, api_utils.check_for_invalid_fields fs object_fields
         = inl (InvalidParameterValue msg).
Proof.
  intros Hf Hnone. unfold api_utils.check_for_invalid_fields.
  destruct (filter _ fs) as [|x l] eqn:Hfilter; [|by eexists].
  assert (f ∈ filter (λ f, object_fields !! f = None) fs) as Hin
    by by apply list_elem_of_filter.
  rewrite Hfilter in Hin. by apply elem_of_nil in Hin.
Qed.

End as_dict.

(** ** Conversion with a field filter *)

(** What a conversion with a filter returns for a field the filter names:
    the record's value, which is there and is not [Unset]. *)
Lemma convert_filtered_field `{Env} (req : Request) (rpc : objects.Chassis)
    (fs : list string) (rep : Chassis) (f : string) :
  base.projection_contract →
  Chassis.convert_with_links req rpc (Some fs) = inr rep →
  f ∈ fs → f ≠ "links" →
  ∃ v, objects.obj_values rpc !! f = Some v ∧ v ≠ Unset ∧
       f ∈ Chassis_fields ∧ f ∈ base.Chassis_attributes ∧
       base.getattr rep f = inr v.
Proof.
  intros Hproj Hrep Hf Hlinks.
  destruct (convert_record_inr_uuid _ _ _ _ Hrep) as (u & Hfu & Hu).
  unfold Chassis.convert_with_links in Hrep.
  destruct (api_utils.check_for_invalid_fields _ _) as [e|[]] eqn:Hcheck;
    [discriminate|]. simpl in Hrep.
  rewrite (convert_filtered _ _ u) in Hrep by by apply init_uuid.
  injection Hrep as <-.
  pose proof (proj1 (check_for_invalid_fields_inr _ _) Hcheck f Hf) as Hsome.
  apply as_dict_init_is_Some in Hsome as (Hfield & Ha & v & Hv & Hne).
  exists v. repeat (split; [done|]).
  rewrite getattr_setattr_ne by done.
  destruct (Hproj (Chassis.__init__ (objects.as_dict rpc)) fs f)
    as [Hkeep _].
  rewrite Hkeep by done.
  rewrite init_getattr, !decide_True by done.
  unfold objects.as_dict in *. by rewrite Hv.
Qed.

(** X2: round trip under a field filter.  When a record is converted with
    a filter, every field the filter names other than [links] is a
    declared record field that the class exposes, the record holds a value
    for it, and reading it back off the representation yields exactly that
    value. *)
Theorem filtered_round_trip `{Env} (req : Request) (rpc : objects.Chassis)
    (fs : list string) (rep : Chassis) :
  base.projection_contract →
  Chassis.convert_with_links req rpc (Some fs) = inr rep →
  ∀ f, f ∈ fs → f ≠ "links" →
    ∃ v, objects.obj_values rpc !! f = Some v ∧ v ≠ Unset ∧
         f ∈ Chassis_fields ∧ f ∈ base.Chassis_attributes ∧
         base.getattr rep f = inr v.
Proof. intros Hproj Hrep f Hf Hl. by eapply convert_filtered_field. Qed.

Lemma filtered_round_trip_witness :
  ∃ rep,
    @Chassis.convert_with_links demo.env demo.req
      (demo.row_object demo.rack_b) (Some ["extra"; "uuid"]) = inr rep ∧
    base.getattr rep "extra" = inr (VDict [("location", VStr "dc-2")]) ∧
    base.getattr rep "uuid"
    = inr (VStr "1be26c0b-03f2-4d2e-ae87-c02d7f33c123").
Proof.
  eexists. split; [by vm_compute|].
  assert (∀ f, f ∈ ["extra"; "uuid"] → f ≠ "links") as Hne.
  { apply Forall_forall. repeat constructor; done. }
  split.
  - destruct (@filtered_round_trip demo.env demo.req
                (demo.row_object demo.rack_b) ["extra"; "uuid"] _
                demo_projection_contract eq_refl "extra")
      as (v & Hv & _ & _ & _ & Hget); [set_solver | done |].
    vm_compute in Hv. injection Hv as <-. exact Hget.
  - by vm_compute.
Defined.

(** X3: a filter that names a field the representation does not hold makes
    the conversion fail with InvalidParameterValue before any link is
    built: a name that is no declared record field (so also [nodes] or
    [links] when the record type has no such field), a record field the
    class has no attribute for, or a field the record holds no value
    for. *)
Theorem unavailable_field_rejected `{Env} (req : Request)
    (rpc : objects.Chassis) (fs : list string) (f : string) :
  f ∈ fs →
  f ∉ Chassis_fields ∨ f ∉ base.Chassis_attributes ∨
    objects.obj_values rpc !! f = None ∨
    objects.obj_values rpc !! f = Some Unset →
  ∃ msg, Chassis.convert_with_links req rpc (Some fs)
         = inl (InvalidParameterValue msg).
Proof.
  intros Hf Hbad. unfold Chassis.convert_with_links.
  destruct (check_for_invalid_fields_inl fs
              (base.as_dict (Chassis.__init__ (objects.as_dict rpc))) f Hf)
    as [msg ->]; [|by eexists].
  apply eq_None_not_Some. intros Hsome.
  apply as_dict_init_is_Some in Hsome as (Hfield & Ha & v & Hv & Hne).
  unfold objects.as_dict in Hv. naive_solver.
Qed.

Lemma unavailable_field_rejected_witness :
  (∃ msg, @Chassis.convert_with_links demo.env demo.req
            (demo.row_object demo.rack_a) (Some ["uuid"; "nodes"])
          = inl (InvalidParameterValue msg)) ∧
  (∃ msg, @Chassis.convert_with_links demo.env demo.req
            (demo.row_object demo.rack_a) (Some ["id"])
          = inl (InvalidParameterValue msg)).
Proof.
  split.
  - apply (@unavailable_field_rejected demo.env demo.req
             (demo.row_object demo.rack_a) ["uuid"; "nodes"] "nodes");
      [set_solver|]. left. apply demo_nodes_not_a_field.
  - apply (@unavailable_field_rejected demo.env demo.req
             (demo.row_object demo.rack_a) ["id"] "id"); [set_solver|].
    right; left. apply (bool_decide_unpack _). by vm_compute.
Defined.

(** X8: without a field filter, [_convert_with_links] needs the uuid of
    the chassis to be a string: for any other value (unset, [None], a
    number) the concatenation [chassis_uuid + "/nodes"] raises [TypeError]
    and no representation is produced. *)
Theorem unfiltered_conversion_needs_string_uuid `{Env} (c : Chassis)
    (url : string) :
  (∀ u, base.getattr c "uuid" ≠ inr (VStr u)) ↔
  Chassis._convert_with_links c url None = inl TypeError.
Proof.
  split.
  - intros Hnot. unfold Chassis._convert_with_links.
    rewrite (getattr_declared _ _ uuid_declared) in *.
    destruct (default Unset (attrs c !! "uuid")) as [ | | | |u| | | | ];
      try done.
    by destruct (Hnot u).
  - intros Herr u Hu. by rewrite (convert_unfiltered _ _ _ Hu) in Herr.
Qed.

(** ** Collections *)

Lemma mapM_first_failure {A B} (f : A → exn + B) (pre post : list A) (bad : A)
    (e : exn) :
  Forall (λ x, ∃ y, f x = inr y) pre → f bad = inl e →
  mapM f (pre ++ bad :: post) = inl e.
Proof.
  intros Hpre Hbad. induction Hpre as [|x pre [y Hy] _ IH]; simpl.
  - by rewrite Hbad.
  - by rewrite Hy, IH.
Qed.

(** X4: [ChassisCollection.convert_with_links] converts all the records or
    none.  When it returns, the collection has type [chassis] and holds
    one representation per record, in the order of the records, each the
    conversion of its record under the same filter; when some record fails
    to convert, the listing fails with the error of the first such
    record. *)
Theorem collection_converts_all_or_nothing `{Env} (req : Request)
    (records : list objects.Chassis) (limit : Z) (url : option string)
    (fs : option (list string)) (sort_key sort_dir : string) :
  (∀ col,
     ChassisCollection.convert_with_links req records limit url fs sort_key
       sort_dir = inr col →
     _type col = "chassis" ∧
     length (chassis col) = length records ∧
     ∀ i rpc, records !! i = Some rpc →
       ∃ rep, chassis col !! i = Some rep ∧
              Chassis.convert_with_links req rpc fs = inr rep) ∧
  (∀ pre bad post e,
     records = (pre ++ bad :: post)%list →
     Forall (λ rpc, ∃ rep, Chassis.convert_with_links req rpc fs = inr rep)
       pre →
     Chassis.convert_with_links req bad fs = inl e →
     ChassisCollection.convert_with_links req records limit url fs sort_key
       sort_dir = inl e).
Proof.
  split.
  - intros col Hcol.
    pose proof (collection_convert_inr _ _ _ _ _ _ _ _ Hcol) as Hitems.
    split; [|split].
    + unfold ChassisCollection.convert_with_links in Hcol.
      destruct (mapM _ records); [discriminate|]. by injection Hcol as <-.
    + symmetry. by eapply Forall2_length.
    + intros i rpc Hi.
      destruct (Forall2_lookup_l _ _ _ _ _ Hitems Hi) as (rep & Hrep & Hconv).
      eauto.
  - intros pre bad post e -> Hpre Hbad.
    unfold ChassisCollection.convert_with_links.
    by rewrite (mapM_first_failure _ pre post bad e).
Qed.

Lemma collection_converts_all_or_nothing_witness :
  ∃ e,
    @ChassisCollection.convert_with_links demo.env demo.req
      [demo.row_object demo.rack_a; demo.row_object ∅;
       demo.row_object demo.rack_b] 10 None None "id" "asc" = inl e.
Proof.
  exists TypeError.
  destruct (@collection_converts_all_or_nothing demo.env demo.req
              [demo.row_object demo.rack_a; demo.row_object ∅;
               demo.row_object demo.rack_b] 10 None None "id" "asc")
    as [_ Hfail].
  apply (Hfail [demo.row_object demo.rack_a] (demo.row_object ∅)
           [demo.row_object demo.rack_b]).
  - done.
  - repeat constructor. eexists. by vm_compute.
  - by vm_compute.
Defined.

(** ** More on the update *)

(** X5: a patch that changes nothing stages nothing.  When the patched
    dict agrees with the record on every exposed field, and the record
    holds a value other than [Unset] for each of them, the loop of [patch]
    returns the record as it found it: no field is assigned, none is
    recorded as changed, and [save] receives the record untouched. *)
Theorem unchanged_patch_stages_nothing `{Env} (req : Request)
    (chassis_uuid : string) (p : list ChassisPatchType) (db : DB)
    (rpc : objects.Chassis) (patched : gmap string value) :
  ChassisController.get_by_uuid db chassis_uuid = inr rpc →
  apply_jsonpatch (objects.as_dict rpc) p = inr patched →
  (∀ f, f ∈ Chassis_fields → f ∈ base.Chassis_attributes →
        patched !! f = objects.obj_values rpc !! f ∧
        ∃ v, objects.obj_values rpc !! f = Some v ∧ v ≠ Unset) →
  ChassisController.update_changed_fields (Chassis.__init__ patched) rpc
    Chassis_fields = inr rpc ∧
  ChassisController.patch req chassis_uuid p db
  = match db_save rpc db with
    | inl e => (inl e, db)
    | inr (saved, db') => (Chassis.convert_with_links req saved None, db')
    end.
Proof.
  intros Hget Hpatch Hsame.
  destruct (update_changed_fields_spec (Chassis.__init__ patched)
              Chassis_fields rpc) as (rpc' & Hloop & Hv & Hc).
  { intros f Hf Ha. destruct (Hsame f Hf Ha) as (_ & v & -> & _). eauto. }
  assert (rpc' = rpc) as ->.
  { destruct rpc' as [values' changes'], rpc as [values changes].
    simpl in *. f_equal.
    - apply map_eq. intros g. rewrite Hv. case_decide as Hg; [|done].
      destruct Hg as [Hf Ha]. rewrite patch_val_init by done.
      destruct (Hsame g Hf Ha) as (-> & v & -> & Hne).
      simpl. unfold none_if_unset. by rewrite decide_False.
    - apply set_eq. intros g. rewrite Hc. split; [|by left].
      intros [Hin|(Hf & Ha & Hdiff)]; [done|]. exfalso. apply Hdiff.
      rewrite patch_val_init by done.
      destruct (Hsame g Hf Ha) as (-> & v & -> & Hne).
      simpl. unfold none_if_unset. by rewrite decide_False. }
  split; [done|]. by eapply patch_applied.
Qed.

Lemma unchanged_patch_stages_nothing_witness :
  ChassisController.update_changed_fields
    (@Chassis.__init__ demo.env demo.rack_b) (demo.row_object demo.rack_b)
    (@Chassis_fields demo.env)
  = inr (demo.row_object demo.rack_b).
Proof.
  apply (@unchanged_patch_stages_nothing demo.env demo.req
           "1be26c0b-03f2-4d2e-ae87-c02d7f33c123"
           [{| op := "replace"; path := "/description"; patch_value := VNone |}]
           demo.db (demo.row_object demo.rack_b) demo.rack_b).
  - by vm_compute.
  - by vm_compute.
  - intros f Hf _. revert f Hf. apply Forall_forall.
    repeat constructor; eexists; split; by vm_compute.
Defined.

(** X6: [patch] writes to the store through [save] only.  The store it
    leaves is the one it found, or the one a successful [save] returned;
    an unknown uuid fails with ResourceNotFound, and an exception of
    [apply_jsonpatch] outside the JSON-patch exceptions is raised as it
    is, not wrapped in [PatchError], both with the store as found. *)
Theorem patch_writes_through_save_only `{Env} (req : Request)
    (chassis_uuid : string) (p : list ChassisPatchType) (db : DB) :
  ((ChassisController.patch req chassis_uuid p db).2 = db ∨
   ∃ rpc' saved,
     db_save rpc' db
     = inr (saved, (ChassisController.patch req chassis_uuid p db).2)) ∧
  (db_get_by_uuid db chassis_uuid = None →
   ChassisController.patch req chassis_uuid p db
   = (inl (ResourceNotFound chassis_uuid), db)) ∧
  (∀ rpc e,
     db_get_by_uuid db chassis_uuid = Some rpc →
     apply_jsonpatch (objects.as_dict rpc) p = inl e →
     JSONPATCH_EXCEPTIONS e = false →
     ChassisController.patch req chassis_uuid p db = (inl e, db)).
Proof.
  unfold ChassisController.patch, ChassisController.get_by_uuid.
  split; [|split].
  - destruct (db_get_by_uuid db chassis_uuid) as [rpc|]; [|by left].
    destruct (apply_jsonpatch _ p) as [e|patched].
    { destruct (JSONPATCH_EXCEPTIONS e); by left. }
    destruct (ChassisController.update_changed_fields _ _ _) as [e|rpc'];
      [by left|].
    destruct (db_save rpc' db) as [e|[saved db']] eqn:Hsave; [by left|].
    right. by exists rpc', saved.
  - by intros ->.
  - intros rpc e -> -> Hexc. by rewrite Hexc.
Qed.

(** ** The parent segment of a request path *)

Lemma string_app_cons_assoc (cur : string) (c : ascii) (s : string) :
  (cur +:+ String c "") +:+ s = cur +:+ String c s.
Proof.
  induction cur as [|d cur IH]; [done|].
  change (String d ((cur +:+ String c "") +:+ s) = String d (cur +:+ String c s)).
  by rewrite IH.
Qed.

Lemma string_app_empty_r (s : string) : s +:+ "" = s.
Proof.
  induction s as [|d s IH]; [done|].
  change (String d (s +:+ "") = String d s). by rewrite IH.
Qed.

(** [True] for the strings without a slash. *)
Fixpoint no_slash (s : string) : bool :=
  match s with
  | EmptyString => true
  | String c s => negb (Ascii.eqb c "/") && no_slash s
  end.

Lemma py_split_from_no_slash (cur s : string) :
  no_slash s = true → py_split_from "/" cur s = [cur +:+ s].
Proof.
  revert cur. induction s as [|c s IH]; intros cur Hs.
  - cbn [py_split_from]. by rewrite string_app_empty_r.
  - cbn [no_slash] in Hs. apply andb_true_iff in Hs as [Hc Hs].
    cbn [py_split_from]. destruct (Ascii.eqb c "/"); [discriminate|].
    rewrite IH by done. f_equal. apply string_app_cons_assoc.
Qed.

Lemma py_split_from_app (cur p s : string) :
  py_split_from "/" cur (p +:+ String "/" s)
  = (py_split_from "/" cur p ++ py_split_from "/" "" s)%list.
Proof.
  revert cur. induction p as [|c p IH]; intros cur; simpl; [done|].
  destruct (Ascii.eqb c "/"); simpl; by rewrite IH.
Qed.

Lemma py_last_init_snoc2 {A} (l : list A) (x y : A) :
  py_last (py_init (l ++ [x; y])) = inr x.
Proof.
  unfold py_last, py_init. rewrite length_app. simpl.
  replace (length l + 2 - 1)%nat with (length l + 1)%nat by lia.
  replace (l ++ [x; y])%list with ((l ++ [x]) ++ [y])%list
    by by rewrite <- app_assoc.
  rewrite take_app_length' by (rewrite length_app; simpl; lia).
  by rewrite last_snoc.
Qed.

(** X7: which paths reach the detail listing.  For a request path that
    ends in [/chassis/] followed by one segment, whatever precedes it (a
    version prefix or nothing at all), the parent segment is [chassis] and
    [detail] runs the listing; for a path without any slash there is no
    parent segment, and [detail] raises [IndexError] instead of
    [HTTPNotFound]. *)
Theorem detail_reached_by_path `{Env} (req : Request)
    (marker : option string) (limit : option Z) (sort_key sort_dir : string)
    (db : DB) :
  (∀ prefix segment,
     request_path req = prefix +:+ "/chassis/" +:+ segment →
     no_slash segment = true →
     ChassisController.parent_segment req = inr "chassis" ∧
     ChassisController.detail req marker limit sort_key sort_dir db
     = ChassisController._get_chassis_collection req marker limit sort_key
         sort_dir (Some "chassis/detail") None db) ∧
  (no_slash (request_path req) = true →
     ChassisController.parent_segment req = inl IndexError ∧
     ChassisController.detail req marker limit sort_key sort_dir db
     = inl IndexError).
Proof.
  split.
  - intros prefix segment Hpath Hseg.
    assert (ChassisController.parent_segment req = inr "chassis") as Hparent.
    { unfold ChassisController.parent_segment, py_split. rewrite Hpath.
      change (prefix +:+ "/chassis/" +:+ segment)
        with (prefix +:+ String "/" ("chassis" +:+ String "/" segment)).
      rewrite py_split_from_app.
      change ("chassis" +:+ String "/" segment)
        with ("chassis" +:+ String "/" segment).
      rewrite (py_split_from_app "" "chassis" segment).
      rewrite (py_split_from_no_slash "" segment Hseg).
      change (py_split_from "/" "" "chassis") with ["chassis"].
      simpl. apply py_last_init_snoc2. }
    split; [done|]. unfold ChassisController.detail. rewrite Hparent.
    cbn [mbind exn_bind]. by rewrite bool_decide_eq_false_2 by (intros ?; done).
  - intros Hpath.
    assert (ChassisController.parent_segment req = inl IndexError) as Hparent.
    { unfold ChassisController.parent_segment, py_split.
      by rewrite (py_split_from_no_slash "" _ Hpath). }
    split; [done|]. unfold ChassisController.detail. by rewrite Hparent.
Qed.

Lemma detail_reached_by_path_witness :
  ChassisController.parent_segment
    {| host_url := "http://localhost:6385"; request_path := "/chassis/detail" |}
  = inr "chassis" ∧
  @ChassisController.detail demo.env
    {| host_url := "http://localhost:6385"; request_path := "detail" |}
    None None "id" "asc" demo.db
  = inl IndexError.
Proof.
  split.
  - destruct (@detail_reached_by_path demo.env
                {| host_url := "http://localhost:6385";
                   request_path := "/chassis/detail" |}
                None None "id" "asc" demo.db) as [Hunder _].
    by apply (Hunder "" "detail").
  - destruct (@detail_reached_by_path demo.env
                {| host_url := "http://localhost:6385";
                   request_path := "detail" |}
                None None "id" "asc" demo.db) as [_ Hnone].
    by apply Hnone.
Defined.
